(** * mapa_pokryti: node ingestion, height resolution, viewshed orchestration
      and coverage aggregation

    Shallow embedding of [src/viewshed.py] and [src/merge.py].

    Numbers.  Python floats are modelled without rounding.  What is read
    from the node table and every position (latitude, longitude, projected
    coordinates) is a rational ([Q]), so that validation and the in-grid
    tests compute; heights and elevations are reals ([R]), because the
    Fresnel radius takes a square root.  NaN is written [None] where the
    code can produce it (a coerced table cell, the ground elevation of a
    node outside the terrain raster, the maximum of a fully masked window).
    Python integers are [Z]. *)

From Stdlib Require Import List String Ascii Bool ZArith QArith Qround Lia.
From Stdlib Require Import Reals Lra Qreals Permutation.
Import ListNotations.

Set Implicit Arguments.

(* ------------------------------------------------------------------ *)
(** * Node ingestion and validation ([_load_nodes], lines 114-161)     *)
(* ------------------------------------------------------------------ *)

Module Ingest.

Local Open Scope string_scope.
Local Open Scope Z_scope.

(** Whitespace removed by [str.strip()] (ASCII part). *)
Definition is_space (c : ascii) : bool :=
  let n := nat_of_ascii c in
  (Nat.leb 9 n && Nat.leb n 13) || (Nat.leb 28 n && Nat.leb n 32).

Fixpoint lstrip (s : string) : string :=
  match s with
  | EmptyString => EmptyString
  | String c t => if is_space c then lstrip t else s
  end.

Fixpoint rstrip (s : string) : string :=
  match s with
  | EmptyString => EmptyString
  | String c t =>
      match rstrip t with
      | EmptyString => if is_space c then EmptyString else String c EmptyString
      | t' => String c t'
      end
  end.

Definition strip (s : string) : string := rstrip (lstrip s).

(** One row of the node table.  [r_id] is the [id] cell after
    [astype(str)]; [r_lat] and [r_lon] are the cells as
    [pd.to_numeric(errors="coerce")] sees them: a number, or [None] for NaN
    (absent or not numeric).  [r_name] and [r_height] are [None] when the
    column is absent or the cell is NaN. *)
Record Row := mkRow {
  r_id : string;
  r_lat : option Q;
  r_lon : option Q;
  r_height : option Q;
  r_name : option string
}.

(** [cfg["input"]["validation"]]; every toggle defaults to [True]. *)
Record Validation := mkValidation {
  drop_invalid_coords : bool;
  drop_zero_coords : bool;
  dedupe_by_id : bool
}.

Definition default_validation : Validation := mkValidation true true true.

Record Stats := mkStats {
  rows_input : Z;
  rows_dropped_nan : Z;
  rows_dropped_empty_id : Z;
  rows_dropped_invalid_range : Z;
  rows_dropped_zero_coords : Z;
  rows_dropped_duplicate_id : Z;
  rows_valid : Z
}.

(** Lines 119-121 (and 154-156): trim the identifier; the coordinates are
    already coerced. *)
Definition normalise (r : Row) : Row :=
  mkRow (strip (r_id r)) (r_lat r) (r_lon r) (r_height r) (r_name r).

Definition len (A : Type) (l : list A) : Z := Z.of_nat (List.length l).

Definition count (A : Type) (p : A -> bool) (l : list A) : Z :=
  len (filter p l).

(** [df[["id","lat","lon"]].isna().any(axis=1)]: the identifier is a string
    and never NaN. *)
Definition isna_any (r : Row) : bool :=
  match r_lat r, r_lon r with
  | Some _, Some _ => false
  | _, _ => true
  end.

Definition empty_id (r : Row) : bool := String.eqb (r_id r) "".

Definition Qlt_bool (x y : Q) : bool := negb (Qle_bool y x).

(** Comparisons with NaN are false. *)
Definition invalid_coord_mask (r : Row) : bool :=
  match r_lat r, r_lon r with
  | Some la, Some lo =>
      Qlt_bool la (-90) || Qlt_bool 90 la || Qlt_bool lo (-180) || Qlt_bool 180 lo
  | _, _ => false
  end.

Definition zero_coord_mask (r : Row) : bool :=
  match r_lat r, r_lon r with
  | Some la, Some lo => Qeq_bool la 0 && Qeq_bool lo 0
  | _, _ => false
  end.

Definition isin (s : string) (keys : list string) : bool :=
  existsb (String.eqb s) keys.

(** [drop_duplicates(subset=["id"], keep="first")]. *)
Fixpoint drop_duplicates_from (seen : list string) (l : list Row) : list Row :=
  match l with
  | [] => []
  | r :: t =>
      if isin (r_id r) seen then drop_duplicates_from seen t
      else r :: drop_duplicates_from (r_id r :: seen) t
  end.

Definition drop_duplicates (l : list Row) : list Row :=
  drop_duplicates_from [] l.

(** The table after each stage, as the code names them. *)
Definition stage_coerce (df : list Row) : list Row := map normalise df.

Definition stage_dropna (df : list Row) : list Row :=
  filter (fun r => negb (isna_any r)) (stage_coerce df).

Definition stage_nonempty (df : list Row) : list Row :=
  filter (fun r => negb (empty_id r)) (stage_dropna df).

Definition stage_range (v : Validation) (df : list Row) : list Row :=
  if drop_invalid_coords v
  then filter (fun r => negb (invalid_coord_mask r)) (stage_nonempty df)
  else stage_nonempty df.

Definition stage_zero (v : Validation) (df : list Row) : list Row :=
  if drop_zero_coords v
  then filter (fun r => negb (zero_coord_mask r)) (stage_range v df)
  else stage_range v df.

Definition stage_dedup (v : Validation) (df : list Row) : list Row :=
  if dedupe_by_id v then drop_duplicates (stage_zero v df) else stage_zero v df.

(** Lines 117-149. *)
Definition validate (v : Validation) (df : list Row) : list Row * Stats :=
  let rows_input := len df in
  let rows_nan := count isna_any (stage_coerce df) in
  let rows_empty_id := count empty_id (stage_dropna df) in
  let rows_invalid_range := count invalid_coord_mask (stage_nonempty df) in
  let rows_zero_coords := count zero_coord_mask (stage_range v df) in
  let rows_before_dedup := len (stage_zero v df) in
  let out := stage_dedup v df in
  let rows_deduped := rows_before_dedup - len out in
  (out,
   mkStats rows_input rows_nan rows_empty_id rows_invalid_range
           rows_zero_coords rows_deduped (len out)).

(** Lines 151-161: the table written to [nodes_rejected_csv] (when that
    output is configured): the file is loaded again, normalised again, and
    the rows whose identifier is not one of the kept identifiers are
    written. *)
Definition rejected_rows (v : Validation) (df : list Row) : list Row :=
  let keep_ids := map r_id (fst (validate v df)) in
  filter (fun r => negb (isin (r_id r) keep_ids)) (stage_coerce df).

Definition dropped_total (s : Stats) : Z :=
  rows_dropped_nan s + rows_dropped_empty_id s + rows_dropped_invalid_range s
  + rows_dropped_zero_coords s + rows_dropped_duplicate_id s.

(** Relative order: [Subseq l1 l2] when [l1] is [l2] with rows deleted. *)
Inductive Subseq (A : Type) : list A -> list A -> Prop :=
| Subseq_nil : Subseq [] []
| Subseq_skip : forall x l1 l2, Subseq l1 l2 -> Subseq l1 (x :: l2)
| Subseq_keep : forall x l1 l2, Subseq l1 l2 -> Subseq (x :: l1) (x :: l2).

Definition has_id (s : string) (r : Row) : bool := String.eqb (r_id r) s.

(** The rows of the spec's scenario. *)
Definition row_of (i : string) (la lo h : Q) : Row :=
  mkRow i (Some la) (Some lo) (Some h) None.

Definition scenario : list Row :=
  [row_of "A" 50 14 10; row_of "B" 0 0 5; row_of "A" 50 14 10].

(** Two rows with one identifier and different content. *)
Definition dup_table : list Row :=
  [row_of "A" 50 14 10; row_of "A" 51 15 7].

(** One row with latitude 100, and the range filter switched off. *)
Definition range_table : list Row := [row_of "A" 100 14 10].

Definition keep_invalid_range : Validation := mkValidation false true true.

End Ingest.

(* ------------------------------------------------------------------ *)
(** * Height resolution ([_fresnel_radius_m],
      [_estimate_min_height_from_local_terrain], [_load_nodes] 163-239) *)
(* ------------------------------------------------------------------ *)

Module Height.

Import Ingest.
Local Open Scope R_scope.

Definition Rleb (x y : R) : bool := if Rle_dec x y then true else false.
Definition Rltb (x y : R) : bool := if Rlt_dec x y then true else false.

(** Lines 29-40.  [17.32] is [1732/100]. *)
Definition _fresnel_radius_m (distance_m frequency_mhz split_ratio : R) : R :=
  if Rleb distance_m 0 || Rleb frequency_mhz 0 then 0
  else
    let d1_km := (distance_m * split_ratio) / 1000 in
    let d2_km := (distance_m * (1 - split_ratio)) / 1000 in
    let d_km := distance_m / 1000 in
    let f_ghz := frequency_mhz / 1000 in
    if Rleb d1_km 0 || Rleb d2_km 0 || Rleb d_km 0 || Rleb f_ghz 0 then 0
    else 1732 / 100 * sqrt ((d1_km * d2_km) / (f_ghz * d_km)).

(** The opened terrain raster ([rasterio] dataset), band 1.  [project] is
    [rio_transform("EPSG:4326", src.crs, [lon], [lat])] and [rowcol] is
    [rasterio.transform.rowcol(src.transform, x, y)]; both belong to the
    geospatial library and are taken as given; a position is a pair of
    rationals.  [band] is the stored value
    of a pixel, [nodata] tells whether [read(masked=True)] masks it. *)
Record Dem := mkDem {
  height : Z;
  width : Z;
  transform_a : R;
  transform_e : R;
  band : Z -> Z -> R;
  nodata : Z -> Z -> bool;
  project : option Q -> option Q -> Q * Q;
  rowcol : Q -> Q -> Z * Z
}.

(** [int(np.ceil(x))]. *)
Definition Zceil (x : R) : Z := (1 - up (- x))%Z.

(** [range(lo, hi)]. *)
Definition zrange (lo hi : Z) : list Z :=
  map (fun i => (lo + Z.of_nat i)%Z) (seq 0 (Z.to_nat (hi - lo))).

(** [src.read(1, window=((r0, r1), (c0, c1)), masked=True)], row-major:
    each pixel with its mask bit. *)
Definition read_window (src : Dem) (r0 r1 c0 c1 : Z) : list (R * bool) :=
  flat_map (fun r => map (fun c => (band src r c, nodata src r c)) (zrange c0 c1))
           (zrange r0 r1).

(** [float(arr.max())] of a masked array: the largest unmasked value, NaN
    ([None]) when every pixel is masked. *)
Fixpoint ma_max (arr : list (R * bool)) : option R :=
  match arr with
  | [] => None
  | (v, m) :: t =>
      if m then ma_max t
      else match ma_max t with
           | None => Some v
           | Some w => Some (Rmax v w)
           end
  end.

Definition px_radius_of (src : Dem) (local_radius_m : R) : Z :=
  let pixel_x := Rabs (transform_a src) in
  let pixel_y := Rabs (transform_e src) in
  let pixel_size_m := Rmax (Rmin pixel_x pixel_y) (1 / 1000000) in
  Z.max (Zceil (local_radius_m / pixel_size_m)) 1.

(** Lines 78-104.  [max(0.0, needed)] keeps [0.0] when [needed] is NaN. *)
Definition _estimate_min_height_from_local_terrain
    (src : Dem) (ox oy : Q) (ground_elev_m local_radius_m clearance_margin_m : R) : R :=
  let '(row, col) := rowcol src ox oy in
  let px_radius := px_radius_of src local_radius_m in
  let r0 := Z.max (row - px_radius) 0 in
  let r1 := Z.min (row + px_radius + 1) (height src) in
  let c0 := Z.max (col - px_radius) 0 in
  let c1 := Z.min (col + px_radius + 1) (width src) in
  if (r1 <=? r0)%Z || (c1 <=? c0)%Z then 0
  else
    let arr := read_window src r0 r1 c0 c1 in
    if (len arr =? 0)%Z then 0
    else
      match ma_max arr with
      | None => 0
      | Some local_max => Rmax 0 (local_max - ground_elev_m + clearance_margin_m)
      end.

(** Lines 100-104 on their own: the terrain floor read off a window. *)
Definition floor_of_window (arr : list (R * bool)) (g c : R) : R :=
  if (len arr =? 0)%Z then 0
  else match ma_max arr with
       | None => 0
       | Some local_max => Rmax 0 (local_max - g + c)
       end.

(** [cfg["input"]["height_strategy"]], [cfg["radio"]] and the two
    [cfg["viewshed"]] values the height engine reads. *)
Record HeightCfg := mkHeightCfg {
  observer_height_default_m : R;
  mode : string;
  min_height_m : R;
  max_height_m : R;
  local_radius_m : R;
  clearance_margin_m : R;
  use_fresnel : bool;
  fresnel_clearance_ratio : R;
  fresnel_sample_ratio : R;
  frequency_mhz : R;
  max_distance_m : R
}.

(** The defaults of lines 163-174. *)
Definition default_cfg : HeightCfg :=
  mkHeightCfg 6 "adaptive_min" 4 120 300 2 true (6 / 10) (5 / 10) 868 20000.

Record Node := mkNode {
  node_id : string;
  name : string;
  lat : option Q;
  lon : option Q;
  input_height_m : R;
  min_required_height_m : R;
  height_m : R;
  ground_elev_m : option R
}.

(** What one iteration of the loop of lines 192-239 appends. *)
Record Resolved := mkResolved {
  node : Node;
  fresnel_margin_val : R;
  adapted : bool
}.

(** Lines 212-215. *)
Definition fresnel_margin_of (cfg : HeightCfg) : R :=
  if use_fresnel cfg
  then Rmax 0 (_fresnel_radius_m (max_distance_m cfg) (frequency_mhz cfg)
                                 (fresnel_sample_ratio cfg)
               * fresnel_clearance_ratio cfg)
  else 0.

(** Lines 217-219. *)
Definition used_height (cfg : HeightCfg) (raw_h min_required_h fresnel_margin : R) : R :=
  let used_h := Rmax (Rmax raw_h (min_height_m cfg)) min_required_h in
  let used_h := Rmax used_h (min_required_h + fresnel_margin) in
  Rmin used_h (max_height_m cfg).

Definition inside (src : Dem) (row col : Z) : bool :=
  ((0 <=? row) && (row <? height src) && (0 <=? col) && (col <? width src))%Z.

(** The body of the loop, lines 193-239. *)
Definition resolve_node (cfg : HeightCfg) (src : Dem) (r : Row) : Resolved :=
  let raw_h :=
    match r_height r with
    | Some h => Q2R h
    | None => observer_height_default_m cfg
    end in
  let '(ox, oy) := project src (r_lon r) (r_lat r) in
  let '(row, col) := rowcol src ox oy in
  let ground_elev :=
    if inside src row col then Some (band src row col) else None in
  let min_required_h :=
    match ground_elev with
    | Some g =>
        if String.eqb (mode cfg) "adaptive_min"
        then _estimate_min_height_from_local_terrain
               src ox oy g (local_radius_m cfg) (clearance_margin_m cfg)
        else 0
    | None => 0
    end in
  let fresnel_margin := fresnel_margin_of cfg in
  let used_h := used_height cfg raw_h min_required_h fresnel_margin in
  let node_name :=
    match r_name r with
    | Some n => strip n
    | None => r_id r
    end in
  mkResolved
    (mkNode (r_id r) node_name (r_lat r) (r_lon r)
            raw_h min_required_h used_h ground_elev)
    fresnel_margin
    (Rltb (raw_h + 1 / 1000000000) used_h).

(** The loop over the validated table. *)
Definition resolve_nodes (cfg : HeightCfg) (src : Dem) (df : list Row) : list Resolved :=
  map (resolve_node cfg src) df.

(** [clamp(x, lo, hi)] as [numpy.clip] computes it. *)
Definition clamp (x lo hi : R) : R := Rmin (Rmax x lo) hi.

(** The final height of the node made from a row. *)
Definition used_height_m (cfg : HeightCfg) (src : Dem) (r : Row) : R :=
  height_m (node (resolve_node cfg src r)).

(** A configuration with one value replaced, the others held fixed. *)
Definition with_local_radius (cfg : HeightCfg) (x : R) : HeightCfg :=
  mkHeightCfg (observer_height_default_m cfg) (mode cfg) (min_height_m cfg)
    (max_height_m cfg) x (clearance_margin_m cfg) (use_fresnel cfg)
    (fresnel_clearance_ratio cfg) (fresnel_sample_ratio cfg)
    (frequency_mhz cfg) (max_distance_m cfg).

Definition with_clearance_margin (cfg : HeightCfg) (x : R) : HeightCfg :=
  mkHeightCfg (observer_height_default_m cfg) (mode cfg) (min_height_m cfg)
    (max_height_m cfg) (local_radius_m cfg) x (use_fresnel cfg)
    (fresnel_clearance_ratio cfg) (fresnel_sample_ratio cfg)
    (frequency_mhz cfg) (max_distance_m cfg).

Definition with_fresnel_ratio (cfg : HeightCfg) (x : R) : HeightCfg :=
  mkHeightCfg (observer_height_default_m cfg) (mode cfg) (min_height_m cfg)
    (max_height_m cfg) (local_radius_m cfg) (clearance_margin_m cfg)
    (use_fresnel cfg) x (fresnel_sample_ratio cfg)
    (frequency_mhz cfg) (max_distance_m cfg).

(** A configuration whose [min_height_m] is above its [max_height_m]. *)
Definition inverted_cfg : HeightCfg :=
  mkHeightCfg 6 "adaptive_min" 10 5 300 2 true (6 / 10) (5 / 10) 868 20000.

(** A 3 x 3 raster of elevation 0 with 30 m pixels; every position falls in
    its centre pixel. *)
Definition flat_dem : Dem :=
  mkDem 3 3 30 (-30) (fun _ _ => 0) (fun _ _ => false)
        (fun _ _ => (0%Q, 0%Q)) (fun _ _ => (1%Z, 1%Z)).

Definition coord (c : option Q) : Q :=
  match c with
  | Some q => q
  | None => 0%Q
  end.

(** A 3 x 3 raster of elevation 0 in the geographic CRS itself ([project]
    is the identity), north-up with 1-degree pixels, covering longitudes 0
    to 3 and latitudes 0 to 3. *)
Definition geo_dem : Dem :=
  mkDem 3 3 1 (-1) (fun _ _ => 0) (fun _ _ => false)
        (fun lon lat => (coord lon, coord lat))
        (fun x y => (Qfloor (3 - y), Qfloor x)).

End Height.

(* ------------------------------------------------------------------ *)
(** * Coverage aggregation ([merge.py], [merge_binary_rasters])        *)
(* ------------------------------------------------------------------ *)

Module Merge.

Local Open Scope Z_scope.

(** An opened raster file: its grid ([height], [width], [transform] as the
    six affine coefficients, [crs]) and band 1, row-major. *)
Record Raster := mkRaster {
  height : Z;
  width : Z;
  transform : list Q;
  crs : string;
  read1 : list (list Z)
}.

(** What is written to [out_path]: the profile of the base raster with
    [dtype=uint32, count=1, nodata=0], and the accumulator as band 1. *)
Record CoverageRaster := mkCoverage {
  cov_height : Z;
  cov_width : Z;
  cov_transform : list Q;
  cov_crs : string;
  cov_cells : list (list Z)
}.

Record MergeResult := mkMergeResult {
  written : CoverageRaster;
  coverage_tif : string;
  max_count : Z;
  sum : Z
}.

Inductive merge_error :=
| NoRastersProvided     (* ValueError, line 14 *)
| RasterioIOError (path : string).

Definition zip_with (A B C : Type) (f : A -> B -> C) (l1 : list A) (l2 : list B) : list C :=
  map (fun ab => f (fst ab) (snd ab)) (combine l1 l2).

(** [np.zeros((h, w))]. *)
Definition zeros (h w : Z) : list (list Z) :=
  repeat (repeat 0 (Z.to_nat w)) (Z.to_nat h).

Definition uint8 (x : Z) : Z := x mod 256.
Definition uint32 (x : Z) : Z := x mod 4294967296.

(** [(src_arr > 0).astype(np.uint8)]. *)
Definition binarise (a : list (list Z)) : list (list Z) :=
  map (map (fun x => if 0 <? x then 1 else 0)) a.

(** [acc += dst_arr.astype(np.uint32)], element by element with uint32
    wrap-around. *)
Definition add_u32 (acc dst : list (list Z)) : list (list Z) :=
  zip_with (zip_with (fun a d => uint32 (a + uint32 d))) acc dst.

Definition array_max (a : list (list Z)) : Z :=
  fold_right (fun row m => fold_right Z.max m row) 0 a.

(** [int(acc.sum())]: numpy sums a uint32 array in uint64. *)
Definition array_sum (a : list (list Z)) : Z :=
  (fold_right (fun row s => fold_right Z.add s row) 0 a) mod 18446744073709551616.

Section WithFiles.

(** [rasterio.open]: the raster stored at a path, if it opens. *)
Variable open_raster : string -> option Raster.

(** [rasterio.warp.reproject] with nearest resampling and nodata 0: the
    value it leaves in cell (row, col) of the destination, for a source
    array on the source grid and a destination grid.  The library is taken
    as given. *)
Variable reproject :
  list (list Z) -> list Q -> string -> list Q -> string -> Z -> Z -> Z.

(** The destination array after [reproject]: the shape of [acc], dtype
    uint8. *)
Definition dst_arr_of (base src : Raster) : list (list Z) :=
  map (fun i =>
         map (fun j =>
                uint8 (reproject (binarise (read1 src)) (transform src) (crs src)
                                 (transform base) (crs base) i j))
             (Height.zrange 0 (width base)))
      (Height.zrange 0 (height base)).

(** The loop of lines 24-40. *)
Fixpoint accumulate (base : Raster) (acc : list (list Z)) (raster_paths : list string)
  : merge_error + list (list Z) :=
  match raster_paths with
  | [] => inr acc
  | p :: rest =>
      match open_raster p with
      | None => inl (RasterioIOError p)
      | Some src => accumulate base (add_u32 acc (dst_arr_of base src)) rest
      end
  end.

(** Line 16: [template_path] is used when given and not empty. *)
Definition base_path (raster_paths : list string) (template_path : option string)
  : option string :=
  match template_path with
  | Some t => if String.eqb t "" then hd_error raster_paths else Some t
  | None => hd_error raster_paths
  end.

(** Lines 11-47. *)
Definition merge_binary_rasters
    (raster_paths : list string) (out_path : string) (template_path : option string)
  : merge_error + MergeResult :=
  match raster_paths with
  | [] => inl NoRastersProvided
  | _ =>
      match base_path raster_paths template_path with
      | None => inl NoRastersProvided
      | Some b =>
          match open_raster b with
          | None => inl (RasterioIOError b)
          | Some src0 =>
              match accumulate src0 (zeros (height src0) (width src0)) raster_paths with
              | inl e => inl e
              | inr acc =>
                  inr (mkMergeResult
                         (mkCoverage (height src0) (width src0)
                                     (transform src0) (crs src0) acc)
                         out_path (array_max acc) (array_sum acc))
              end
          end
      end
  end.

End WithFiles.

(** The result without the detail of a failure. *)
Definition result_of (A : Type) (res : merge_error + A) : option A :=
  match res with
  | inl _ => None
  | inr m => Some m
  end.

(** A [reproject] for rasters that already lie on the destination grid:
    cell (row, col) of the source, 0 outside it. *)
Definition reproject_aligned
    (source : list (list Z)) (src_transform : list Q) (src_crs : string)
    (dst_transform : list Q) (dst_crs : string) (row col : Z) : Z :=
  nth (Z.to_nat col) (nth (Z.to_nat row) source []) 0.

Definition grid30 : list Q := [30; 0; 0; 0; -30; 0]%Q.

(** Three files: two 2 x 2 viewsheds on the grid of a 2 x 2 terrain raster,
    and a 1 x 1 viewshed. *)
Definition demo_files (path : string) : option Raster :=
  if String.eqb path "dem.tif" then
    Some (mkRaster 2 2 grid30 "EPSG:32633" [[0; 0]; [0; 0]])
  else if String.eqb path "a.tif" then
    Some (mkRaster 2 2 grid30 "EPSG:32633" [[1; 0]; [0; 1]])
  else if String.eqb path "b.tif" then
    Some (mkRaster 2 2 grid30 "EPSG:32633" [[1; 1]; [0; 0]])
  else if String.eqb path "c.tif" then
    Some (mkRaster 1 1 grid30 "EPSG:32633" [[1]])
  else None.

End Merge.

(* ------------------------------------------------------------------ *)
(** * Viewshed orchestration ([_load_nodes], [_compute_one],
      [compute_coverage])                                              *)
(* ------------------------------------------------------------------ *)

Module Orchestration.

Import Ingest.
Local Open Scope string_scope.

Inductive error :=
| NodesFileNotFound          (* FileNotFoundError, line 54 *)
| MissingNodeColumns         (* ValueError, line 112 *)
| DemOpenError (path : string)   (* rasterio.open raises *)
| NoNodesFound               (* ValueError, line 352 *)
| GdalViewshedNotFound       (* RuntimeError, line 312 *)
| CommandFailed              (* RuntimeError, line 46 *)
| NoViewshedRasters          (* ValueError, line 367 *)
| MergeFailed (e : Merge.merge_error).

(** The command line of lines 315-340, field by field. *)
Record Request := mkRequest {
  gdal_viewshed : string;
  req_ox : Q;
  req_oy : Q;
  req_oz : R;
  req_tz : R;
  req_md : R;
  req_cc : option R;
  req_dem_path : string;
  req_out_path : string
}.

(** What the run does to the outside, in order.  [EvJob] marks the entry
    of [_compute_one] for a node: the moment its job starts. *)
Inductive event :=
| EvReadNodes (path : string)
| EvWriteRejected (path : string) (rows : list Row)
| EvOpenDem (path : string)
| EvJob (node_id : string)
| EvWhich
| EvRun (cmd : Request).

(** Log of events, then exception or value. *)
Definition M (A : Type) : Type := list event * (error + A).

Definition ret (A : Type) (a : A) : M A := ([], inr a).
Definition raise (A : Type) (e : error) : M A := ([], inl e).
Definition emit (ev : event) : M unit := ([ev], inr tt).
Arguments raise {A} e.

Definition bind (A B : Type) (m : M A) (f : A -> M B) : M B :=
  match m with
  | (l, inl e) => (l, inl e)
  | (l, inr a) => let '(l', r) := f a in ((l ++ l')%list, r)
  end.

Notation "x <- m ;; k" := (bind m (fun x => k))
  (at level 61, m at next level, right associativity).
Notation "m ;;; k" := (bind m (fun _ => k))
  (at level 61, right associativity).

(** What the run finds outside: files, the executable, the primitive. *)
Record World := mkWorld {
  path_exists : string -> bool;
  read_nodes : string -> error + list Row;
  open_dem : string -> option Height.Dem;
  open_raster : string -> option Merge.Raster;
  reproject : list (list Z) -> list Q -> string -> list Q -> string -> Z -> Z -> Z;
  which_gdal_viewshed : option string;
  run_succeeds : Request -> bool
}.

Record Config := mkConfig {
  nodes_csv : string;
  validation : Validation;
  nodes_rejected_csv : option string;
  height_strategy : Height.HeightCfg;
  dem_path_of : string;
  dem_prepared_path : option string;
  tmp_dir : string;
  workers : Z;
  parallel : bool;
  target_height_m : R;
  curvature_correction : bool;
  refraction_coeff : R;
  coverage_tif : string;
  nodes_geojson : string
}.

Record Report := mkReport {
  nodes : Z;
  nodes_skipped_outside_dem : Z;
  node_input_stats : Stats;
  viewshed_rasters : Z;
  merge_result : Merge.MergeResult
}.

Section Run.

Variable w : World.
Variable cfg : Config.

Definition rasterio_open (path : string) : M Height.Dem :=
  emit (EvOpenDem path) ;;;
  match open_dem w path with
  | Some src => ret src
  | None => raise (DemOpenError path)
  end.

(** [_load_nodes], lines 107-269: the table, its validation, the rejected
    rows written when that output is configured (the table is read a second
    time for them), then the height of every validated row.  The cleaned
    table and the statistics file of lines 257-267 add nothing to the
    returned value and are left out of the log. *)
Definition _load_nodes (dem_path : string) : M (list Height.Node * Stats) :=
  emit (EvReadNodes (nodes_csv cfg)) ;;;
  match read_nodes w (nodes_csv cfg) with
  | inl e => raise e
  | inr df =>
      let '(valid, stats) := validate (validation cfg) df in
      match nodes_rejected_csv cfg with
      | Some out =>
          if String.eqb out "" then ret tt
          else
            emit (EvReadNodes (nodes_csv cfg)) ;;;
            emit (EvWriteRejected out (rejected_rows (validation cfg) df))
      | None => ret tt
      end ;;;
      src <- rasterio_open dem_path ;;
      ret (map (@Height.node) (Height.resolve_nodes (height_strategy cfg) src valid),
           stats)
  end.

(** [tmp_dir / f"viewshed_{node_id}.tif"]. *)
Definition out_path_of (node_id : string) : string :=
  tmp_dir cfg ++ "/viewshed_" ++ node_id ++ ".tif".

Definition outside (src : Height.Dem) (n : Height.Node) : bool :=
  let '(ox, oy) := Height.project src (Height.lon n) (Height.lat n) in
  let '(row, col) := Height.rowcol src ox oy in
  ((row <? 0) || (col <? 0) || (Height.height src <=? row)
   || (Height.width src <=? col))%Z.

(** Lines 296-342. *)
Definition _compute_one (n : Height.Node) (dem_path : string) : M string :=
  emit (EvJob (Height.node_id n)) ;;;
  src <- rasterio_open dem_path ;;
  if outside src n then ret ""
  else
    emit EvWhich ;;;
    match which_gdal_viewshed w with
    | None => raise GdalViewshedNotFound
    | Some exe =>
        let '(ox, oy) := Height.project src (Height.lon n) (Height.lat n) in
        let cmd :=
          mkRequest exe ox oy (Height.height_m n) (target_height_m cfg)
                    (Height.max_distance_m (height_strategy cfg))
                    (if curvature_correction cfg
                     then Some (refraction_coeff cfg) else None)
                    dem_path (out_path_of (Height.node_id n)) in
        emit (EvRun cmd) ;;;
        if run_succeeds w cmd then ret (out_path_of (Height.node_id n))
        else raise CommandFailed
    end.

(** [[_compute_one(j) for j in jobs]]: the jobs in order, up to the first
    exception.  [pool.map] applies the same function to the same jobs and
    returns the results in job order; its scheduling is not modelled, and
    the parallel branch is given the log of this sequential schedule. *)
Fixpoint map_jobs (dem_path : string) (jobs : list Height.Node) : M (list string) :=
  match jobs with
  | [] => ret []
  | n :: rest =>
      r <- _compute_one n dem_path ;;
      rs <- map_jobs dem_path rest ;;
      ret (r :: rs)
  end.

Definition nonempty (s : string) : bool := negb (String.eqb s "").

(** Lines 346-348: the prepared terrain raster when it is configured and
    exists, the raw one otherwise. *)
Definition chosen_dem_path : string :=
  let dem_path :=
    match dem_prepared_path cfg with
    | Some p => p
    | None => dem_path_of cfg
    end in
  if path_exists w dem_path then dem_path else dem_path_of cfg.

(** What [_compute_one] returns for a node when it does not raise. *)
Definition raster_name (src : Height.Dem) (n : Height.Node) : string :=
  if outside src n then "" else out_path_of (Height.node_id n).

(** Lines 345-384. *)
Definition compute_coverage : M Report :=
  let dem_path := chosen_dem_path in
  loaded <- _load_nodes dem_path ;;
  let '(nodes, node_stats) := loaded in
  match nodes with
  | [] => raise NoNodesFound
  | _ =>
      rasters <- (if parallel cfg && (1 <? workers cfg)%Z
                  then map_jobs dem_path nodes
                  else map_jobs dem_path nodes) ;;
      let rasters := filter nonempty rasters in
      match rasters with
      | [] => raise NoViewshedRasters
      | _ =>
          match Merge.merge_binary_rasters (open_raster w) (reproject w)
                  rasters (coverage_tif cfg) (Some dem_path) with
          | inl e => raise (MergeFailed e)
          | inr m =>
              ret (mkReport (len nodes) (len nodes - len rasters)
                            node_stats (len rasters) m)
          end
      end
  end.

End Run.

(** A terrain raster on which every position falls outside (pixel (5, 5)
    of a 3 x 3 grid). *)
Definition offgrid_dem : Height.Dem :=
  Height.mkDem 3 3 30 (-30) (fun _ _ => 0%R) (fun _ _ => false)
               (fun _ _ => (0%Q, 0%Q)) (fun _ _ => (5%Z, 5%Z)).

(** A sequential run over the one-row table [A], with the defaults of the
    height strategy. *)
Definition demo_cfg : Config :=
  mkConfig "nodes.csv" default_validation (Some "rejected.csv")
           Height.default_cfg "dem.tif" None "tmp" 1 false
           0 true (13 / 100) "coverage.tif" "nodes.geojson".

Definition demo_table (path : string) : error + list Row :=
  if String.eqb path "nodes.csv" then inr [row_of "A" 50 14 10]
  else inl NodesFileNotFound.

(** Node A at latitude 1.5, longitude 1.5 and node B at latitude 50,
    longitude 14. *)
Definition two_node_table (path : string) : error + list Row :=
  if String.eqb path "nodes.csv"
  then inr [row_of "A" (3 # 2) (3 # 2) 10; row_of "B" 50 14 5]
  else inl NodesFileNotFound.

Definition viewshed_files (path : string) : option Merge.Raster :=
  if String.eqb path "tmp/viewshed_A.tif" then Merge.demo_files "a.tif"
  else Merge.demo_files path.

(** Everything in place. *)
Definition world_ok : World :=
  mkWorld (fun _ => true) demo_table
          (fun p => if String.eqb p "dem.tif" then Some Height.flat_dem else None)
          viewshed_files Merge.reproject_aligned
          (Some "/usr/bin/gdal_viewshed") (fun _ => true).

(** The same without the [gdal_viewshed] executable. *)
Definition world_no_gdal : World :=
  mkWorld (fun _ => true) demo_table
          (fun p => if String.eqb p "dem.tif" then Some Height.flat_dem else None)
          viewshed_files Merge.reproject_aligned
          None (fun _ => true).

(** Everything in place; node A falls in the centre pixel of [geo_dem],
    node B outside it. *)
Definition world_two_nodes : World :=
  mkWorld (fun _ => true) two_node_table
          (fun p => if String.eqb p "dem.tif" then Some Height.geo_dem else None)
          viewshed_files Merge.reproject_aligned
          (Some "/usr/bin/gdal_viewshed") (fun _ => true).

(** Everything in place, but the node falls outside the terrain raster. *)
Definition world_offgrid : World :=
  mkWorld (fun _ => true) demo_table
          (fun p => if String.eqb p "dem.tif" then Some offgrid_dem else None)
          viewshed_files Merge.reproject_aligned
          (Some "/usr/bin/gdal_viewshed") (fun _ => true).

Definition log (A : Type) (m : M A) : list event := fst m.
Definition outcome (A : Type) (m : M A) : error + A := snd m.

Definition value_of (A : Type) (m : M A) : option A :=
  match outcome m with
  | inl _ => None
  | inr a => Some a
  end.

Definition is_job (ev : event) : bool :=
  match ev with EvJob _ => true | _ => false end.

Definition is_run (ev : event) : bool :=
  match ev with EvRun _ => true | _ => false end.

Definition failed (A : Type) (m : M A) : bool :=
  match outcome m with inl _ => true | inr _ => false end.

End Orchestration.

(* ================================================================== *)
(** * Properties of the ingestion pipeline                             *)
(* ================================================================== *)

Section IngestFacts.

Import Ingest.
Local Open Scope Z_scope.

Lemma len_filter_split (A : Type) (p : A -> bool) (l : list A) :
  count p l + len (filter (fun x => negb (p x)) l) = len l.
Proof.
  unfold count, len.
  induction l as [|x l IH]; [reflexivity|].
  cbn [filter]. destruct (p x); cbn [negb List.length];
    rewrite ?Nat2Z.inj_succ; lia.
Qed.

Lemma len_map (A B : Type) (f : A -> B) (l : list A) : len (map f l) = len l.
Proof. unfold len. now rewrite length_map. Qed.

Lemma Subseq_refl (A : Type) (l : list A) : Subseq l l.
Proof. induction l; constructor; assumption. Qed.

Lemma Subseq_trans (A : Type) (l1 l2 l3 : list A) :
  Subseq l1 l2 -> Subseq l2 l3 -> Subseq l1 l3.
Proof.
  intros H12 H23. revert l1 H12.
  induction H23 as [|x l2 l3 _ IH|x l2 l3 _ IH]; intros l1 H12.
  - assumption.
  - constructor. now apply IH.
  - inversion H12; subst.
    + constructor. now apply IH.
    + apply Subseq_keep. now apply IH.
Qed.

Lemma Subseq_filter (A : Type) (p : A -> bool) (l : list A) :
  Subseq (filter p l) l.
Proof.
  induction l as [|x l IH]; simpl; [constructor|].
  destruct (p x); constructor; assumption.
Qed.

Lemma Subseq_drop_duplicates_from (seen : list string) (l : list Row) :
  Subseq (drop_duplicates_from seen l) l.
Proof.
  revert seen. induction l as [|r l IH]; intros seen; simpl; [constructor|].
  destruct (isin (r_id r) seen); constructor; apply IH.
Qed.

Lemma isin_In (s : string) (keys : list string) :
  isin s keys = true <-> In s keys.
Proof.
  unfold isin. rewrite existsb_exists. split.
  - intros [k [Hk He]]. apply String.eqb_eq in He. now subst.
  - intros H. exists s. split; [assumption | apply String.eqb_refl].
Qed.

Lemma isin_cons_false (s k : string) (keys : list string) :
  isin s (k :: keys) = false -> s <> k /\ isin s keys = false.
Proof.
  unfold isin. simpl. intros H. apply orb_false_iff in H. destruct H as [H1 H2].
  split; [|assumption]. intros ->. now rewrite String.eqb_refl in H1.
Qed.

(** A kept row is the first row of the table with its identifier, and its
    identifier was not seen before. *)
Lemma drop_duplicates_from_first (seen : list string) (l : list Row) (r : Row) :
  In r (drop_duplicates_from seen l) ->
  find (has_id (r_id r)) l = Some r /\ isin (r_id r) seen = false.
Proof.
  revert seen. induction l as [|r0 l IH]; intros seen; simpl; [tauto|].
  destruct (isin (r_id r0) seen) eqn:E.
  - intros H. destruct (IH _ H) as [Hf Hs]. split; [|assumption].
    unfold has_id at 1. destruct (String.eqb (r_id r0) (r_id r)) eqn:E'; [|assumption].
    apply String.eqb_eq in E'. rewrite E' in E. congruence.
  - intros [->|H].
    + unfold has_id. now rewrite String.eqb_refl.
    + destruct (IH _ H) as [Hf Hs]. apply isin_cons_false in Hs.
      destruct Hs as [Hne Hs]. split; [|assumption].
      unfold has_id at 1. destruct (String.eqb (r_id r0) (r_id r)) eqn:E'; [|assumption].
      apply String.eqb_eq in E'. congruence.
Qed.

Lemma drop_duplicates_from_NoDup (seen : list string) (l : list Row) :
  NoDup (map r_id (drop_duplicates_from seen l)).
Proof.
  revert seen. induction l as [|r0 l IH]; intros seen; simpl; [constructor|].
  destruct (isin (r_id r0) seen) eqn:E; [apply IH|].
  simpl. constructor; [|apply IH].
  intros Hin. apply in_map_iff in Hin. destruct Hin as [r [Hid Hr]].
  apply drop_duplicates_from_first in Hr. destruct Hr as [_ Hs].
  rewrite Hid in Hs. apply isin_cons_false in Hs. tauto.
Qed.

(** No identifier disappears: every row of the table has its identifier
    among the seen ones or among the kept rows. *)
Lemma drop_duplicates_from_covers (seen : list string) (l : list Row) (r : Row) :
  In r l ->
  isin (r_id r) (seen ++ map r_id (drop_duplicates_from seen l)) = true.
Proof.
  revert seen. induction l as [|r0 l IH]; intros seen; simpl; [tauto|].
  intros [->|H].
  - destruct (isin (r_id r) seen) eqn:E; apply isin_In, in_or_app.
    + left. now apply isin_In.
    + right. simpl. now left.
  - destruct (isin (r_id r0) seen) eqn:E.
    + now apply IH.
    + specialize (IH (r_id r0 :: seen) H). apply isin_In in IH. apply isin_In.
      simpl in IH. apply in_or_app. destruct IH as [<-|IH].
      * right. simpl. now left.
      * apply in_app_or in IH. destruct IH as [IH|IH]; [now left|].
        right. simpl. now right.
Qed.

Lemma Subseq_stage_zero (v : Validation) (df : list Row) :
  Subseq (stage_zero v df) (map normalise df).
Proof.
  unfold stage_zero, stage_range, stage_nonempty, stage_dropna, stage_coerce.
  destruct (drop_zero_coords v), (drop_invalid_coords v);
    repeat (eapply Subseq_trans; [apply Subseq_filter|]);
    try apply Subseq_refl; apply Subseq_filter.
Qed.

(** With the range and zero filters switched on, every input row is counted
    once: as valid, or under the stage that removed it. *)
Lemma accounting_when_filters_on (dedupe : bool) (df : list Row) :
  let s := snd (validate (mkValidation true true dedupe) df) in
  rows_valid s + dropped_total s = rows_input s.
Proof.
  unfold validate, dropped_total; simpl.
  unfold stage_dedup, stage_zero, stage_range; simpl.
  pose proof (len_filter_split zero_coord_mask
                (filter (fun r => negb (invalid_coord_mask r)) (stage_nonempty df))) as H1.
  pose proof (len_filter_split invalid_coord_mask (stage_nonempty df)) as H2.
  pose proof (len_filter_split empty_id (stage_dropna df)) as H3.
  pose proof (len_filter_split isna_any (stage_coerce df)) as H4.
  fold (stage_dropna df) in H4. fold (stage_nonempty df) in H3.
  unfold stage_coerce in H4 at 2. rewrite len_map in H4.
  lia.
Qed.

End IngestFacts.

Section IngestClaims.

Import Ingest.
Local Open Scope Z_scope.
Local Open Scope string_scope.

(** C2 (the code departs from the claim).  The table [dup_table] has two
    rows with identifier A and different content.  Under the default
    toggles the second row is dropped as a duplicate, yet the rejected
    output is empty: the row cannot be retrieved from it. *)
Theorem C2_duplicate_row_missing_from_rejected :
  fst (validate default_validation dup_table) = [row_of "A" 50 14 10] /\
  rows_dropped_duplicate_id (snd (validate default_validation dup_table)) = 1 /\
  rejected_rows default_validation dup_table = [].
Proof. repeat split; vm_compute; reflexivity. Qed.

(** C3 (the code departs from the claim).  With [drop_invalid_coords]
    switched off, the row of [range_table] (latitude 100) is kept as valid
    and is also counted in [rows_dropped_invalid_range]: one input row,
    valid plus dropped is two. *)
Theorem C3_kept_row_counted_as_dropped :
  let s := snd (validate keep_invalid_range range_table) in
  rows_input s = 1 /\ rows_valid s = 1 /\ rows_dropped_invalid_range s = 1 /\
  rows_valid s + dropped_total s = 2.
Proof. repeat split; vm_compute; reflexivity. Qed.

(** C6.  The validated rows are the (normalised) input rows with rows
    deleted, in the input's order; with deduplication on, identifiers are
    unique, every kept row is the first row with its identifier among the
    rows that reach the deduplication, and no identifier is lost; the
    spec's three-row table validates to [A] with one zero-coordinate drop
    and one duplicate drop. *)
Theorem C6_order_kept_and_first_occurrence_wins :
  (forall v df, Subseq (fst (validate v df)) (map normalise df)) /\
  (forall a b df,
     let v := mkValidation a b true in
     NoDup (map r_id (fst (validate v df))) /\
     Forall (fun r => find (has_id (r_id r)) (stage_zero v df) = Some r)
            (fst (validate v df)) /\
     Forall (fun r => isin (r_id r) (map r_id (fst (validate v df))) = true)
            (stage_zero v df)) /\
  validate default_validation scenario
  = ([row_of "A" 50 14 10], mkStats 3 0 0 0 1 1 1).
Proof.
  split; [|split].
  - intros v df. unfold validate. cbn [fst]. unfold stage_dedup.
    destruct (dedupe_by_id v).
    + eapply Subseq_trans; [apply Subseq_drop_duplicates_from|].
      apply Subseq_stage_zero.
    + apply Subseq_stage_zero.
  - intros a b df v. unfold validate. cbn [fst]. unfold stage_dedup.
    cbn [dedupe_by_id v]. unfold drop_duplicates. repeat split.
    + apply drop_duplicates_from_NoDup.
    + apply Forall_forall. intros r Hr.
      now apply drop_duplicates_from_first in Hr.
    + apply Forall_forall. intros r Hr.
      now apply (drop_duplicates_from_covers []) in Hr.
  - vm_compute. reflexivity.
Qed.

End IngestClaims.

(* ================================================================== *)
(** * Properties of the height engine                                  *)
(* ================================================================== *)

Ltac rmaxmin := unfold Rmax, Rmin; repeat destruct (Rle_dec _ _); lra.

Section HeightFacts.

Import Ingest Height.
Local Open Scope R_scope.

Lemma Rleb_true (x y : R) : Rleb x y = true <-> x <= y.
Proof. unfold Rleb. destruct (Rle_dec x y); split; intros; try easy. Qed.

Lemma Rleb_false (x y : R) : Rleb x y = false <-> y < x.
Proof.
  unfold Rleb. destruct (Rle_dec x y); split; intros; try easy; lra.
Qed.

(** The radius in closed form on the inputs that pass both guards. *)
Lemma fresnel_closed_form (d f s : R) :
  0 < d -> 0 < f -> 0 < s < 1 ->
  _fresnel_radius_m d f s = 1732 / 100 * sqrt (d * (s * (1 - s)) / f).
Proof.
  intros Hd Hf [Hs0 Hs1]. unfold _fresnel_radius_m.
  assert (E1 : Rleb d 0 = false) by (apply Rleb_false; lra).
  assert (E2 : Rleb f 0 = false) by (apply Rleb_false; lra).
  assert (E3 : Rleb (d * s / 1000) 0 = false) by (apply Rleb_false; nra).
  assert (E4 : Rleb (d * (1 - s) / 1000) 0 = false) by (apply Rleb_false; nra).
  assert (E5 : Rleb (d / 1000) 0 = false) by (apply Rleb_false; lra).
  assert (E6 : Rleb (f / 1000) 0 = false) by (apply Rleb_false; lra).
  rewrite E1, E2, E3, E4, E5, E6. cbn [orb].
  f_equal. f_equal. field. lra.
Qed.

Lemma fresnel_nonneg (d f s : R) : 0 <= _fresnel_radius_m d f s.
Proof.
  unfold _fresnel_radius_m.
  destruct (Rleb d 0 || Rleb f 0); [lra|].
  destruct (_ || _); [lra|].
  pose proof (sqrt_pos (d * s / 1000 * (d * (1 - s) / 1000) / (f / 1000 * (d / 1000)))).
  nra.
Qed.

Lemma up_mono (a b : R) : a <= b -> (up a <= up b)%Z.
Proof.
  intros Hab.
  destruct (archimed a) as [_ Ha]. destruct (archimed b) as [Hb _].
  destruct (Z_le_gt_dec (up a) (up b)) as [H|H]; [assumption|exfalso].
  assert (H' : (up b + 1 <= up a)%Z) by lia.
  apply IZR_le in H'. rewrite plus_IZR in H'. lra.
Qed.

Lemma Zceil_mono (x y : R) : x <= y -> (Zceil x <= Zceil y)%Z.
Proof.
  intros H. unfold Zceil.
  assert (up (- y) <= up (- x))%Z by (apply up_mono; lra). lia.
Qed.

Lemma Zceil_IZR (z : Z) : Zceil (IZR z) = z.
Proof.
  unfold Zceil. rewrite <- opp_IZR.
  assert (up (IZR (- z)) = (- z + 1)%Z).
  { symmetry. apply tech_up; rewrite plus_IZR; lra. }
  lia.
Qed.

Lemma px_radius_mono (src : Dem) (x y : R) :
  x <= y -> (px_radius_of src x <= px_radius_of src y)%Z.
Proof.
  intros H. unfold px_radius_of.
  set (ps := Rmax _ _).
  assert (Hps : 0 < ps).
  { unfold ps. pose proof (Rmax_r (Rmin (Rabs (transform_a src)) (Rabs (transform_e src)))
                                  (1 / 1000000)). lra. }
  assert (x / ps <= y / ps).
  { unfold Rdiv. apply Rmult_le_compat_r; [|assumption].
    left. now apply Rinv_0_lt_compat. }
  pose proof (Zceil_mono H0). lia.
Qed.

Lemma In_zrange (lo hi x : Z) : In x (zrange lo hi) <-> (lo <= x < hi)%Z.
Proof.
  unfold zrange. rewrite in_map_iff. split.
  - intros [i [<- Hi]]. apply in_seq in Hi. lia.
  - intros H. exists (Z.to_nat (x - lo)). split; [lia|].
    apply in_seq. lia.
Qed.

Lemma In_read_window (src : Dem) (r0 r1 c0 c1 : Z) (x : R * bool) :
  In x (read_window src r0 r1 c0 c1) <->
  exists i j, (r0 <= i < r1)%Z /\ (c0 <= j < c1)%Z /\ x = (band src i j, nodata src i j).
Proof.
  unfold read_window. rewrite in_flat_map. split.
  - intros [i [Hi Hx]]. apply in_map_iff in Hx. destruct Hx as [j [<- Hj]].
    exists i, j. rewrite In_zrange in Hi, Hj. auto.
  - intros [i [j [Hi [Hj ->]]]]. exists i. split; [now apply In_zrange|].
    apply in_map_iff. exists j. split; [reflexivity | now apply In_zrange].
Qed.

(** [ma_max] is the largest unmasked value, or NaN when there is none. *)
Lemma ma_max_spec (arr : list (R * bool)) :
  match ma_max arr with
  | None => forall v, ~ In (v, false) arr
  | Some m => In (m, false) arr /\ forall v, In (v, false) arr -> v <= m
  end.
Proof.
  induction arr as [|[v m] t IH]; simpl; [tauto|].
  destruct m.
  - destruct (ma_max t) as [w|].
    + destruct IH as [Hin Hle]. split; [now right|].
      intros v' [E|H]; [discriminate | now apply Hle].
    + intros v' [E|H]; [discriminate | now apply (IH v')].
  - destruct (ma_max t) as [w|].
    + destruct IH as [Hin Hle]. split.
      * unfold Rmax. destruct (Rle_dec v w); [now right | now left].
      * intros v' [E|H].
        -- injection E as <-. apply Rmax_l.
        -- apply Rle_trans with w; [now apply Hle | apply Rmax_r].
    + split; [now left|].
      intros v' [E|H]; [injection E as <-; lra | now destruct (IH v')].
Qed.

Lemma floor_of_window_nonneg (arr : list (R * bool)) (g c : R) :
  0 <= floor_of_window arr g c.
Proof.
  unfold floor_of_window. destruct (len arr =? 0)%Z; [lra|].
  destruct (ma_max arr); [apply Rmax_l | lra].
Qed.

Lemma floor_of_window_mono (arr1 arr2 : list (R * bool)) (g c1 c2 : R) :
  incl arr1 arr2 -> c1 <= c2 ->
  floor_of_window arr1 g c1 <= floor_of_window arr2 g c2.
Proof.
  intros Hi Hc. unfold floor_of_window.
  destruct (len arr1 =? 0)%Z eqn:E1.
  { fold (floor_of_window arr2 g c2). apply floor_of_window_nonneg. }
  pose proof (ma_max_spec arr1) as S1. pose proof (ma_max_spec arr2) as S2.
  destruct (ma_max arr1) as [m1|].
  - destruct S1 as [Hin1 _]. apply Hi in Hin1.
    destruct (len arr2 =? 0)%Z eqn:E2.
    { apply Z.eqb_eq in E2. unfold len in E2. destruct arr2; [destruct Hin1|].
      simpl in E2. lia. }
    destruct (ma_max arr2) as [m2|].
    + destruct S2 as [_ Hle2]. specialize (Hle2 _ Hin1). rmaxmin.
    + destruct (S2 _ Hin1).
  - fold (floor_of_window arr2 g c2). apply floor_of_window_nonneg.
Qed.

Lemma estimate_nonneg (src : Dem) (ox oy : Q) (g rad c : R) :
  0 <= _estimate_min_height_from_local_terrain src ox oy g rad c.
Proof.
  unfold _estimate_min_height_from_local_terrain.
  destruct (rowcol src ox oy) as [row col].
  destruct (_ || _); [lra|].
  apply floor_of_window_nonneg.
Qed.

(** A larger radius or a larger margin never lowers the terrain floor. *)
Lemma estimate_mono (src : Dem) (ox oy : Q) (g rad1 rad2 c1 c2 : R) :
  rad1 <= rad2 -> c1 <= c2 ->
  _estimate_min_height_from_local_terrain src ox oy g rad1 c1
  <= _estimate_min_height_from_local_terrain src ox oy g rad2 c2.
Proof.
  intros Hr Hc.
  unfold _estimate_min_height_from_local_terrain.
  destruct (rowcol src ox oy) as [row col].
  pose proof (px_radius_mono src Hr) as Hpx.
  set (p1 := px_radius_of src rad1) in *. set (p2 := px_radius_of src rad2) in *.
  match goal with |- (if ?c then _ else _) <= _ => destruct c eqn:E1 end.
  { match goal with |- _ <= (if ?c then _ else _) => destruct c end;
      [lra | apply floor_of_window_nonneg]. }
  apply orb_false_iff in E1. destruct E1 as [Ea Eb].
  apply Z.leb_gt in Ea, Eb.
  match goal with |- _ <= (if ?c then _ else _) => destruct c eqn:E2 end.
  { apply orb_true_iff in E2. destruct E2 as [E2|E2]; apply Z.leb_le in E2; lia. }
  apply floor_of_window_mono; [|assumption].
  intros x Hx. apply In_read_window in Hx. apply In_read_window.
  destruct Hx as [i [j [Hi [Hj ->]]]]. exists i, j. repeat split; lia.
Qed.

Lemma used_height_le_max (cfg : HeightCfg) (raw req fm : R) :
  used_height cfg raw req fm <= max_height_m cfg.
Proof. unfold used_height. apply Rmin_r. Qed.

Lemma used_height_ge_min (cfg : HeightCfg) (raw req fm : R) :
  min_height_m cfg <= max_height_m cfg ->
  min_height_m cfg <= used_height cfg raw req fm.
Proof. unfold used_height. intros H. rmaxmin. Qed.

Lemma used_height_inverted (cfg : HeightCfg) (raw req fm : R) :
  max_height_m cfg <= min_height_m cfg ->
  used_height cfg raw req fm = max_height_m cfg.
Proof. unfold used_height. intros H. rmaxmin. Qed.

Lemma used_height_mono (cfg : HeightCfg) (raw req1 req2 fm1 fm2 : R) :
  req1 <= req2 -> fm1 <= fm2 ->
  used_height cfg raw req1 fm1 <= used_height cfg raw req2 fm2.
Proof. unfold used_height. intros H1 H2. rmaxmin. Qed.

(** Both usual readings of [clamp] agree on a proper band. *)
Lemma clamp_max_min (x lo hi : R) :
  lo <= hi -> clamp x lo hi = Rmax lo (Rmin x hi).
Proof. unfold clamp. intros H. rmaxmin. Qed.

Lemma used_height_clamp (cfg : HeightCfg) (raw req fm : R) :
  used_height cfg raw req fm
  = clamp (Rmax (Rmax (Rmax raw (min_height_m cfg)) req) (req + fm))
          (min_height_m cfg) (max_height_m cfg).
Proof. unfold used_height, clamp. rmaxmin. Qed.

Lemma fresnel_margin_mono (cfg : HeightCfg) (x y : R) :
  x <= y ->
  fresnel_margin_of (with_fresnel_ratio cfg x)
  <= fresnel_margin_of (with_fresnel_ratio cfg y).
Proof.
  intros H. unfold fresnel_margin_of. cbn.
  destruct (use_fresnel cfg); [|lra].
  pose proof (fresnel_nonneg (max_distance_m cfg) (frequency_mhz cfg)
                             (fresnel_sample_ratio cfg)) as Hn.
  set (rad := _fresnel_radius_m _ _ _) in *.
  assert (rad * x <= rad * y) by nra. rmaxmin.
Qed.

End HeightFacts.

Section HeightClaims.

Import Ingest Height.
Local Open Scope R_scope.

(** The spec's scenario for the terrain floor: on flat terrain of elevation
    0 with a clearance margin of 2 the floor is exactly 2 (30 m pixels and a
    300 m radius give a half-width of 10 pixels, cut to the 3 x 3 raster). *)
Example terrain_floor_flat :
  px_radius_of flat_dem 300 = 10%Z /\
  _estimate_min_height_from_local_terrain flat_dem 0 0 0 300 2 = 2.
Proof.
  assert (E : px_radius_of flat_dem 300 = 10%Z).
  { unfold px_radius_of. cbn [flat_dem transform_a transform_e].
    replace (300 / Rmax (Rmin (Rabs 30) (Rabs (-30))) (1 / 1000000)) with (IZR 10).
    - now rewrite Zceil_IZR.
    - unfold Rabs; repeat destruct (Rcase_abs _); try lra;
        unfold Rmin, Rmax; repeat destruct (Rle_dec _ _); lra. }
  split; [assumption|].
  unfold _estimate_min_height_from_local_terrain.
  cbn [rowcol flat_dem]. rewrite E. cbn.
  change (Pos.to_nat 3) with 3%nat. cbn.
  rmaxmin.
Qed.

(** What [resolve_node] stores in the node, in terms of [used_height]. *)
Lemma resolve_node_height (cfg : HeightCfg) (src : Dem) (r : Row) :
  let n := node (resolve_node cfg src r) in
  height_m n
  = used_height cfg (input_height_m n) (min_required_height_m n)
                (fresnel_margin_of cfg).
Proof.
  unfold resolve_node.
  destruct (project src (r_lon r) (r_lat r)) as [ox oy].
  destruct (rowcol src ox oy) as [row col]. reflexivity.
Qed.

Lemma resolve_node_margin (cfg : HeightCfg) (src : Dem) (r : Row) :
  fresnel_margin_val (resolve_node cfg src r) = fresnel_margin_of cfg.
Proof.
  unfold resolve_node.
  destruct (project src (r_lon r) (r_lat r)) as [ox oy].
  destruct (rowcol src ox oy) as [row col]. reflexivity.
Qed.

(** C1.  Every node that the height loop produces has
    [height_m = clamp(max(input, min_height, floor, floor + fresnel),
    min_height, max_height)], where [floor] is the node's
    [min_required_height_m] and [fresnel] is the margin recorded for the
    node, which is [max(0, radius * ratio)] with Fresnel enabled and [0]
    with it disabled: the margin is added to the terrain floor, not to the
    input height. *)
Theorem C1_final_height_formula (cfg : HeightCfg) (src : Dem) (df : list Row) :
  Forall (fun res =>
            let n := node res in
            height_m n
            = clamp (Rmax (Rmax (Rmax (input_height_m n) (min_height_m cfg))
                                (min_required_height_m n))
                          (min_required_height_m n + fresnel_margin_val res))
                    (min_height_m cfg) (max_height_m cfg)
            /\ fresnel_margin_val res
               = if use_fresnel cfg
                 then Rmax 0 (_fresnel_radius_m (max_distance_m cfg) (frequency_mhz cfg)
                                                (fresnel_sample_ratio cfg)
                              * fresnel_clearance_ratio cfg)
                 else 0)
         (resolve_nodes cfg src df).
Proof.
  unfold resolve_nodes. apply Forall_forall. intros res Hin.
  apply in_map_iff in Hin. destruct Hin as [r [<- _]].
  cbv zeta. rewrite resolve_node_margin. split; [|reflexivity].
  rewrite <- used_height_clamp. apply resolve_node_height.
Qed.

(** C4 as stated fails: with [min_height_m = 10] above [max_height_m = 5]
    the final height is 5, below the minimum. *)
Lemma C4_inverted_band_counterexample :
  used_height_m inverted_cfg flat_dem (row_of "A" 50 14 10) = 5 /\
  ~ (min_height_m inverted_cfg
     <= used_height_m inverted_cfg flat_dem (row_of "A" 50 14 10)
     <= max_height_m inverted_cfg).
Proof.
  assert (E : used_height_m inverted_cfg flat_dem (row_of "A" 50 14 10) = 5).
  { unfold used_height_m. rewrite resolve_node_height.
    rewrite used_height_inverted; cbn; lra. }
  split; [assumption|]. rewrite E. cbn. lra.
Qed.

(** C4, amended.  The final height never exceeds [max_height_m]; it is at
    least [min_height_m] when [min_height_m <= max_height_m]; and it does
    not decrease when [local_radius_m], [clearance_margin_m] or
    [fresnel_clearance_ratio] grows with everything else fixed. *)
Theorem C4_height_band_and_monotone (cfg : HeightCfg) (src : Dem) (r : Row) :
  used_height_m cfg src r <= max_height_m cfg /\
  (min_height_m cfg <= max_height_m cfg ->
   min_height_m cfg <= used_height_m cfg src r) /\
  (forall x y, x <= y ->
     used_height_m (with_local_radius cfg x) src r
     <= used_height_m (with_local_radius cfg y) src r) /\
  (forall x y, x <= y ->
     used_height_m (with_clearance_margin cfg x) src r
     <= used_height_m (with_clearance_margin cfg y) src r) /\
  (forall x y, x <= y ->
     used_height_m (with_fresnel_ratio cfg x) src r
     <= used_height_m (with_fresnel_ratio cfg y) src r).
Proof.
  repeat split.
  - unfold used_height_m. rewrite resolve_node_height. apply used_height_le_max.
  - intros H. unfold used_height_m. rewrite resolve_node_height.
    now apply used_height_ge_min.
  - intros x y H. unfold used_height_m, resolve_node.
    destruct (project src (r_lon r) (r_lat r)) as [ox oy].
    destruct (rowcol src ox oy) as [row col] eqn:Erc. cbn.
    unfold used_height. cbn.
    set (fm := fresnel_margin_of _).
    replace (fresnel_margin_of (with_local_radius cfg y)) with fm by reflexivity.
    apply (used_height_mono cfg); [|lra].
    destruct (inside src row col); [|lra].
    destruct (String.eqb (mode cfg) "adaptive_min"); [|lra].
    apply estimate_mono; [assumption | lra].
  - intros x y H. unfold used_height_m, resolve_node.
    destruct (project src (r_lon r) (r_lat r)) as [ox oy].
    destruct (rowcol src ox oy) as [row col] eqn:Erc. cbn.
    unfold used_height. cbn.
    set (fm := fresnel_margin_of _).
    replace (fresnel_margin_of (with_clearance_margin cfg y)) with fm by reflexivity.
    apply (used_height_mono cfg); [|lra].
    destruct (inside src row col); [|lra].
    destruct (String.eqb (mode cfg) "adaptive_min"); [|lra].
    apply estimate_mono; [lra | assumption].
  - intros x y H. unfold used_height_m, resolve_node.
    destruct (project src (r_lon r) (r_lat r)) as [ox oy].
    destruct (rowcol src ox oy) as [row col] eqn:Erc. cbn.
    unfold used_height. cbn.
    apply (used_height_mono cfg); [lra|].
    now apply fresnel_margin_mono.
Qed.

Lemma C4_height_band_and_monotone_witness :
  4 <= used_height_m default_cfg flat_dem (row_of "A" 50 14 10) <= 120 /\
  used_height_m (with_local_radius default_cfg 100) flat_dem (row_of "A" 50 14 10)
  <= used_height_m (with_local_radius default_cfg 300) flat_dem (row_of "A" 50 14 10) /\
  used_height_m (with_clearance_margin default_cfg 2) flat_dem (row_of "A" 50 14 10)
  <= used_height_m (with_clearance_margin default_cfg 3) flat_dem (row_of "A" 50 14 10) /\
  used_height_m (with_fresnel_ratio default_cfg (6 / 10)) flat_dem (row_of "A" 50 14 10)
  <= used_height_m (with_fresnel_ratio default_cfg 1) flat_dem (row_of "A" 50 14 10).
Proof.
  pose proof (C4_height_band_and_monotone default_cfg flat_dem (row_of "A" 50 14 10))
    as [Hmax [Hmin [Hrad [Hmar Hrat]]]].
  split; [split; [apply Hmin; cbn; lra | exact Hmax]|].
  split; [apply Hrad; lra|].
  split; [apply Hmar; lra | apply Hrat; lra].
Defined.

(** C5 as stated fails: at distance 10000 m and 868 MHz, both positive,
    with the split point at the far end ([split_ratio = 1]) the guard on
    [d2_km] returns 0, not a strictly positive radius. *)
Lemma C5_split_at_end_counterexample :
  _fresnel_radius_m 10000 868 1 = 0 /\ ~ (0 < _fresnel_radius_m 10000 868 1).
Proof.
  assert (E : _fresnel_radius_m 10000 868 1 = 0).
  { unfold _fresnel_radius_m.
    assert (E1 : Rleb 10000 0 = false) by (apply Rleb_false; lra).
    assert (E2 : Rleb 868 0 = false) by (apply Rleb_false; lra).
    assert (E3 : Rleb (10000 * 1 / 1000) 0 = false) by (apply Rleb_false; lra).
    assert (E4 : Rleb (10000 * (1 - 1) / 1000) 0 = true) by (apply Rleb_true; lra).
    rewrite E1, E2, E3, E4. reflexivity. }
  split; [assumption|]. rewrite E. lra.
Qed.

(** C5, amended.  The radius is 0 when the distance or the frequency is not
    positive.  For a positive distance and frequency and a split ratio
    strictly between 0 and 1 it is strictly positive, multiplying the
    distance by [k > 0] multiplies it by [sqrt k], and multiplying the
    frequency by [k > 0] divides it by [sqrt k]. *)
Theorem C5_fresnel_radius_zero_positive_scaling (d f s : R) :
  (d <= 0 \/ f <= 0 -> _fresnel_radius_m d f s = 0) /\
  (0 < d -> 0 < f -> 0 < s < 1 ->
   0 < _fresnel_radius_m d f s /\
   forall k, 0 < k ->
     _fresnel_radius_m (k * d) f s = sqrt k * _fresnel_radius_m d f s /\
     _fresnel_radius_m d (k * f) s = _fresnel_radius_m d f s / sqrt k).
Proof.
  split.
  - intros H. unfold _fresnel_radius_m.
    assert (E : Rleb d 0 || Rleb f 0 = true).
    { apply orb_true_iff. destruct H; [left | right]; now apply Rleb_true. }
    now rewrite E.
  - intros Hd Hf Hs.
    assert (Hc : 0 < s * (1 - s)) by nra.
    assert (Hx : 0 < d * (s * (1 - s)) / f).
    { apply Rdiv_lt_0_compat; nra. }
    split.
    + rewrite fresnel_closed_form by assumption.
      pose proof (sqrt_lt_R0 _ Hx). lra.
    + intros k Hk. split.
      * rewrite !fresnel_closed_form by (try assumption; nra).
        replace (k * d * (s * (1 - s)) / f) with (k * (d * (s * (1 - s)) / f))
          by (field; lra).
        rewrite sqrt_mult by lra. ring.
      * rewrite !fresnel_closed_form by (try assumption; nra).
        replace (d * (s * (1 - s)) / (k * f)) with (d * (s * (1 - s)) / f / k)
          by (field; lra).
        rewrite sqrt_div by lra.
        pose proof (sqrt_lt_R0 _ Hk). field. lra.
Qed.

Lemma C5_fresnel_radius_zero_positive_scaling_witness :
  _fresnel_radius_m 0 868 (1 / 2) = 0 /\
  0 < _fresnel_radius_m 10000 868 (1 / 2) /\
  _fresnel_radius_m (4 * 10000) 868 (1 / 2)
  = sqrt 4 * _fresnel_radius_m 10000 868 (1 / 2) /\
  _fresnel_radius_m 10000 (4 * 868) (1 / 2)
  = _fresnel_radius_m 10000 868 (1 / 2) / sqrt 4.
Proof.
  split.
  - apply (proj1 (C5_fresnel_radius_zero_positive_scaling 0 868 (1 / 2))).
    left. lra.
  - assert (H1 : 0 < 10000) by lra.
    assert (H2 : 0 < 868) by lra.
    assert (H3 : 0 < 1 / 2 < 1) by lra.
    destruct (proj2 (C5_fresnel_radius_zero_positive_scaling 10000 868 (1 / 2))
                H1 H2 H3) as [Hpos Hk].
    split; [exact Hpos|]. apply Hk. lra.
Defined.

(** C10.  The margin recorded for a node is a function of the run's
    configuration alone ([max_distance_m], [frequency_mhz],
    [fresnel_sample_ratio], [fresnel_clearance_ratio], [use_fresnel]):
    whatever the terrain raster and the row, it is [fresnel_margin_of cfg],
    so any two nodes of a run have the same margin. *)
Theorem C10_fresnel_margin_same_for_all_nodes (cfg : HeightCfg) :
  (forall src r, fresnel_margin_val (resolve_node cfg src r) = fresnel_margin_of cfg) /\
  (forall src1 src2 r1 r2,
     fresnel_margin_val (resolve_node cfg src1 r1)
     = fresnel_margin_val (resolve_node cfg src2 r2)) /\
  (forall src df,
     Forall (fun res => fresnel_margin_val res = fresnel_margin_of cfg)
            (resolve_nodes cfg src df)).
Proof.
  split; [|split].
  - intros. apply resolve_node_margin.
  - intros. now rewrite !resolve_node_margin.
  - intros. unfold resolve_nodes. apply Forall_forall. intros res Hin.
    apply in_map_iff in Hin. destruct Hin as [r [<- _]].
    apply resolve_node_margin.
Qed.

End HeightClaims.

(* ================================================================== *)
(** * Properties of the coverage aggregation                           *)
(* ================================================================== *)

Section MergeFacts.

Import Merge.
Local Open Scope Z_scope.




Section Files.

Variable open_raster : string -> option Raster.
Variable reproject :
  list (list Z) -> list Q -> string -> list Q -> string -> Z -> Z -> Z.


End Files.

End MergeFacts.

Section MergeClaims.

Import Merge.
Local Open Scope Z_scope.
Local Open Scope string_scope.

(** The spec's scenario for the merge: three 2 x 2 rasters with overlapping
    visible pixels on the terrain grid; the sum of the counts is the number
    of visible pixels over the three inputs (2 + 2 + 2). *)
Example merge_three_rasters :
  option_map (fun m => (cov_cells (written m), max_count m, sum m))
    (result_of (merge_binary_rasters demo_files reproject_aligned
                  ["a.tif"; "b.tif"; "a.tif"] "coverage.tif" (Some "dem.tif")))
  = Some ([[3; 1]; [0; 2]], 3, 6).
Proof. vm_compute. reflexivity. Qed.




End MergeClaims.

(* ================================================================== *)
(** * Properties of the orchestration                                  *)
(* ================================================================== *)

Section OrchestrationFacts.

Import Ingest Orchestration.
Local Open Scope string_scope.

Lemma bind_log (A B : Type) (m : M A) (f : A -> M B) :
  log (bind m f)
  = (log m ++ match outcome m with
              | inl _ => []
              | inr a => log (f a)
              end)%list.
Proof.
  destruct m as [l [e|a]]; unfold log, outcome; simpl.
  - now rewrite app_nil_r.
  - now destruct (f a).
Qed.

Lemma bind_outcome (A B : Type) (m : M A) (f : A -> M B) :
  outcome (bind m f)
  = match outcome m with
    | inl e => inl e
    | inr a => outcome (f a)
    end.
Proof.
  destruct m as [l [e|a]]; unfold outcome; simpl; [reflexivity|].
  now destruct (f a).
Qed.

Lemma out_path_nonempty (cfg : Config) (i : string) :
  nonempty (out_path_of cfg i) = true.
Proof.
  unfold nonempty, out_path_of. now destruct (tmp_dir cfg).
Qed.

Variable w : World.
Variable cfg : Config.

(** Loading the nodes starts no job and runs no command. *)
Lemma load_nodes_log (dem_path : string) :
  existsb is_job (log (_load_nodes w cfg dem_path)) = false /\
  existsb is_run (log (_load_nodes w cfg dem_path)) = false.
Proof.
  unfold _load_nodes, rasterio_open.
  destruct (read_nodes w (nodes_csv cfg)) as [e|df]; [now split|].
  destruct (validate (validation cfg) df) as [valid stats].
  destruct (nodes_rejected_csv cfg) as [out|];
    [destruct (String.eqb out "")|];
    destruct (open_dem w dem_path); now split.
Qed.

Lemma load_nodes_needs_dem (dem_path : string) :
  open_dem w dem_path = None ->
  failed (_load_nodes w cfg dem_path) = true.
Proof.
  intros H. unfold _load_nodes, rasterio_open. rewrite H.
  destruct (read_nodes w (nodes_csv cfg)) as [e|df]; [reflexivity|].
  destruct (validate (validation cfg) df) as [valid stats].
  destruct (nodes_rejected_csv cfg) as [out|];
    [destruct (String.eqb out "")|]; reflexivity.
Qed.

(** The job of a node outside the raster. *)
Lemma compute_one_outside (n : Height.Node) (dem_path : string) (src : Height.Dem) :
  open_dem w dem_path = Some src ->
  outside src n = true ->
  _compute_one w cfg n dem_path
  = ([EvJob (Height.node_id n); EvOpenDem dem_path], inr "").
Proof.
  intros Ho Hout. unfold _compute_one, rasterio_open. rewrite Ho.
  cbn. now rewrite Hout.
Qed.

(** The job of a node inside the raster when everything is in place. *)
Lemma compute_one_inside (n : Height.Node) (dem_path exe : string) (src : Height.Dem) :
  open_dem w dem_path = Some src ->
  which_gdal_viewshed w = Some exe ->
  (forall cmd, run_succeeds w cmd = true) ->
  outside src n = false ->
  outcome (_compute_one w cfg n dem_path) = inr (out_path_of cfg (Height.node_id n)).
Proof.
  intros Ho Hw Hr Hout. unfold _compute_one, rasterio_open. rewrite Ho.
  cbn. rewrite Hout, Hw. cbn.
  destruct (Height.project src (Height.lon n) (Height.lat n)) as [ox oy].
  cbn. now rewrite Hr.
Qed.

(** Whatever a job returns is the raster name of its node. *)
Lemma compute_one_value (n : Height.Node) (dem_path : string) (src : Height.Dem) (r : string) :
  open_dem w dem_path = Some src ->
  outcome (_compute_one w cfg n dem_path) = inr r ->
  r = raster_name cfg src n.
Proof.
  intros Ho. unfold _compute_one, rasterio_open, raster_name. rewrite Ho. cbn.
  destruct (outside src n); cbn; [congruence|].
  destruct (which_gdal_viewshed w) as [exe|]; cbn; [|discriminate].
  destruct (Height.project src (Height.lon n) (Height.lat n)) as [ox oy]. cbn.
  destruct (run_succeeds w _); cbn; congruence.
Qed.

Lemma compute_one_no_gdal (n : Height.Node) (dem_path : string) :
  which_gdal_viewshed w = None ->
  existsb is_run (log (_compute_one w cfg n dem_path)) = false /\
  forall r, outcome (_compute_one w cfg n dem_path) = inr r -> r = "".
Proof.
  intros Hw. unfold _compute_one, rasterio_open. rewrite Hw.
  destruct (open_dem w dem_path) as [src|]; cbn; [|split; [reflexivity|discriminate]].
  destruct (outside src n); cbn; split; try reflexivity; congruence.
Qed.

Lemma map_jobs_no_gdal (dem_path : string) (jobs : list Height.Node) :
  which_gdal_viewshed w = None ->
  existsb is_run (log (map_jobs w cfg dem_path jobs)) = false /\
  forall rs, outcome (map_jobs w cfg dem_path jobs) = inr rs -> filter nonempty rs = [].
Proof.
  intros Hw. induction jobs as [|n jobs [IHl IHo]]; cbn [map_jobs].
  - split; [reflexivity|]. intros rs H. injection H as <-. reflexivity.
  - destruct (compute_one_no_gdal n dem_path Hw) as [Hl Ho].
    rewrite bind_log, bind_outcome.
    destruct (outcome (_compute_one w cfg n dem_path)) as [e|r] eqn:E.
    + split; [rewrite existsb_app, Hl; reflexivity | discriminate].
    + rewrite bind_log, bind_outcome.
      destruct (outcome (map_jobs w cfg dem_path jobs)) as [e|rs'] eqn:E'.
      * split; [rewrite !existsb_app, Hl, IHl; reflexivity | discriminate].
      * split; [rewrite !existsb_app, Hl, IHl; reflexivity|].
        intros rs H. injection H as <-.
        rewrite (Ho r eq_refl). cbn [filter nonempty String.eqb negb].
        now apply IHo.
Qed.

Lemma map_jobs_value (dem_path : string) (src : Height.Dem) (jobs : list Height.Node) :
  open_dem w dem_path = Some src ->
  forall rs, outcome (map_jobs w cfg dem_path jobs) = inr rs ->
             rs = map (raster_name cfg src) jobs.
Proof.
  intros Ho. induction jobs as [|n jobs IH]; cbn [map_jobs]; intros rs.
  - intros H. injection H as <-. reflexivity.
  - rewrite bind_outcome.
    destruct (outcome (_compute_one w cfg n dem_path)) as [e|r] eqn:E; [discriminate|].
    rewrite bind_outcome.
    destruct (outcome (map_jobs w cfg dem_path jobs)) as [e|rs']; [discriminate|].
    cbn. intros H. injection H as <-.
    rewrite (@compute_one_value n dem_path src r Ho E), (IH rs' eq_refl). reflexivity.
Qed.

Lemma map_jobs_total (dem_path exe : string) (src : Height.Dem) (jobs : list Height.Node) :
  open_dem w dem_path = Some src ->
  which_gdal_viewshed w = Some exe ->
  (forall cmd, run_succeeds w cmd = true) ->
  outcome (map_jobs w cfg dem_path jobs) = inr (map (raster_name cfg src) jobs).
Proof.
  intros Ho Hw Hr. induction jobs as [|n jobs IH]; cbn [map_jobs]; [reflexivity|].
  rewrite bind_outcome.
  assert (E : outcome (_compute_one w cfg n dem_path) = inr (raster_name cfg src n)).
  { unfold raster_name. destruct (outside src n) eqn:Eo.
    - now rewrite (@compute_one_outside n dem_path src Ho Eo).
    - now apply compute_one_inside with exe src. }
  rewrite E, bind_outcome, IH. reflexivity.
Qed.

(** The rasters that remain after the empty names are filtered out are
    those of the nodes inside the raster. *)
Lemma produced_rasters_count (src : Height.Dem) (jobs : list Height.Node) :
  (len (filter nonempty (map (raster_name cfg src) jobs))
   = len jobs - count (outside src) jobs)%Z.
Proof.
  unfold count, len. induction jobs as [|n jobs IH]; [reflexivity|].
  cbn [map filter]. unfold raster_name at 1.
  destruct (outside src n).
  - cbn [nonempty String.eqb negb List.length]. rewrite !Nat2Z.inj_succ. lia.
  - rewrite out_path_nonempty. cbn [List.length]. rewrite !Nat2Z.inj_succ. lia.
Qed.

End OrchestrationFacts.

Section OrchestrationClaims.

Import Ingest Orchestration.
Local Open Scope string_scope.

(** C8 as stated fails for the executable: with [gdal_viewshed] missing, a
    sequential run over one node inside the raster starts that node's job
    (and opens the terrain raster in it) before the missing executable is
    noticed. *)
Lemma C8_job_started_before_check_counterexample :
  which_gdal_viewshed world_no_gdal = None /\
  log (compute_coverage world_no_gdal demo_cfg)
  = [EvReadNodes "nodes.csv"; EvReadNodes "nodes.csv";
     EvWriteRejected "rejected.csv" [];
     EvOpenDem "dem.tif"; EvJob "A"; EvOpenDem "dem.tif"; EvWhich] /\
  outcome (compute_coverage world_no_gdal demo_cfg) = inl GdalViewshedNotFound /\
  existsb is_job (log (compute_coverage world_no_gdal demo_cfg)) = true.
Proof. repeat split; reflexivity. Qed.

(** C8, amended.  A terrain file that does not open makes the run fail
    while the nodes are loaded, before any job is started.  A missing
    executable makes the run fail too, but it is looked up inside each job
    of a node inside the raster: what never happens is that the visibility
    command is run. *)
Theorem C8_failures_and_dispatch (w : World) (cfg : Config) :
  (open_dem w (chosen_dem_path w cfg) = None ->
   failed (compute_coverage w cfg) = true /\
   existsb is_job (log (compute_coverage w cfg)) = false) /\
  (which_gdal_viewshed w = None ->
   failed (compute_coverage w cfg) = true /\
   existsb is_run (log (compute_coverage w cfg)) = false).
Proof.
  split.
  - intros H.
    pose proof (load_nodes_needs_dem w cfg _ H) as Hf.
    destruct (load_nodes_log w cfg (chosen_dem_path w cfg)) as [Hj _].
    unfold failed in *. unfold compute_coverage. cbv zeta.
    rewrite bind_outcome, bind_log.
    destruct (outcome (_load_nodes w cfg (chosen_dem_path w cfg))) as [e|a];
      [|discriminate].
    now rewrite app_nil_r.
  - intros H.
    destruct (load_nodes_log w cfg (chosen_dem_path w cfg)) as [_ Hr].
    unfold failed. unfold compute_coverage. cbv zeta.
    rewrite bind_outcome, bind_log, existsb_app, Hr.
    destruct (outcome (_load_nodes w cfg (chosen_dem_path w cfg)))
      as [e|[ns stats]]; [now split|].
    destruct ns as [|n ns]; [now split|].
    set (jobs := n :: ns).
    destruct (map_jobs_no_gdal w cfg (chosen_dem_path w cfg) jobs H) as [Hl Ho].
    assert (E : (if parallel cfg && (1 <? workers cfg)%Z
                 then map_jobs w cfg (chosen_dem_path w cfg) jobs
                 else map_jobs w cfg (chosen_dem_path w cfg) jobs)
                = map_jobs w cfg (chosen_dem_path w cfg) jobs)
      by now destruct (parallel cfg && (1 <? workers cfg)%Z).
    rewrite E, bind_outcome, bind_log, existsb_app, Hl.
    destruct (outcome (map_jobs w cfg (chosen_dem_path w cfg) jobs)) as [e|rs];
      [now split|].
    rewrite (Ho rs eq_refl). now split.
Qed.

Lemma C8_failures_and_dispatch_witness :
  (failed (compute_coverage world_ok (mkConfig "nodes.csv" default_validation None
             Height.default_cfg "missing.tif" None "tmp" 1 false
             0 true (13 / 100) "coverage.tif" "nodes.geojson")) = true /\
   existsb is_job (log (compute_coverage world_ok (mkConfig "nodes.csv"
             default_validation None
             Height.default_cfg "missing.tif" None "tmp" 1 false
             0 true (13 / 100) "coverage.tif" "nodes.geojson"))) = false) /\
  (failed (compute_coverage world_no_gdal demo_cfg) = true /\
   existsb is_run (log (compute_coverage world_no_gdal demo_cfg)) = false).
Proof.
  split.
  - apply (proj1 (C8_failures_and_dispatch world_ok _)). reflexivity.
  - apply (proj2 (C8_failures_and_dispatch world_no_gdal demo_cfg)). reflexivity.
Defined.

Lemma some_inside_produces (cfg : Config) (src : Height.Dem) (ns : list Height.Node) :
  existsb (fun n => negb (outside src n)) ns = true ->
  filter nonempty (map (raster_name cfg src) ns) <> [].
Proof.
  induction ns as [|n ns IH]; cbn [existsb map filter]; [discriminate|].
  unfold raster_name at 1. destruct (outside src n); cbn [negb orb].
  - cbn. exact IH.
  - intros _. rewrite out_path_nonempty. discriminate.
Qed.

(** C9 as stated fails when every observer is outside: the one node of the
    table falls outside [offgrid_dem], its job returns no raster, and the
    run then raises "No viewshed rasters generated" instead of reporting a
    skip count. *)
Lemma C9_all_outside_counterexample :
  Forall (fun n => outside offgrid_dem n = true)
         (map (@Height.node)
              (Height.resolve_nodes Height.default_cfg offgrid_dem
                                    [row_of "A" 50 14 10])) /\
  outcome (compute_coverage world_offgrid demo_cfg) = inl NoViewshedRasters.
Proof.
  split; [|reflexivity].
  repeat constructor.
Qed.

(** C9, amended.  For the nodes [ns] that the loader produced on the
    terrain raster [src]: the job of a node outside the raster returns the
    empty name without raising and without running the visibility command;
    a run that returns reports [len ns] nodes, a skip count equal to the
    number of nodes outside the raster, and as many rasters as the
    difference; and the run does return when the executable is found, the
    command and the merge succeed and at least one node is inside the
    raster (with every node outside it aborts). *)
Theorem C9_outside_nodes_skipped_and_counted
    (w : World) (cfg : Config) (src : Height.Dem)
    (ns : list Height.Node) (stats : Stats) :
  open_dem w (chosen_dem_path w cfg) = Some src ->
  outcome (_load_nodes w cfg (chosen_dem_path w cfg)) = inr (ns, stats) ->
  (forall n, outside src n = true ->
     outcome (_compute_one w cfg n (chosen_dem_path w cfg)) = inr "" /\
     existsb is_run (log (_compute_one w cfg n (chosen_dem_path w cfg))) = false) /\
  (forall rep, outcome (compute_coverage w cfg) = inr rep ->
     nodes rep = len ns /\
     nodes_skipped_outside_dem rep = count (outside src) ns /\
     nodes_skipped_outside_dem rep = (nodes rep - viewshed_rasters rep)%Z) /\
  (forall exe m,
     which_gdal_viewshed w = Some exe ->
     (forall cmd, run_succeeds w cmd = true) ->
     existsb (fun n => negb (outside src n)) ns = true ->
     Merge.merge_binary_rasters (open_raster w) (reproject w)
       (filter nonempty (map (raster_name cfg src) ns))
       (coverage_tif cfg) (Some (chosen_dem_path w cfg)) = inr m ->
     exists rep, outcome (compute_coverage w cfg) = inr rep).
Proof.
  intros Ho Hl.
  assert (E : forall jobs,
             (if parallel cfg && (1 <? workers cfg)%Z
              then map_jobs w cfg (chosen_dem_path w cfg) jobs
              else map_jobs w cfg (chosen_dem_path w cfg) jobs)
             = map_jobs w cfg (chosen_dem_path w cfg) jobs)
    by (intros; now destruct (parallel cfg && (1 <? workers cfg)%Z)).
  split; [|split].
  - intros n Hn. now rewrite (@compute_one_outside w cfg n _ src Ho Hn).
  - intros rep. unfold compute_coverage. cbv zeta.
    rewrite bind_outcome, Hl.
    destruct ns as [|n0 ns0]; [discriminate|].
    set (jobs := n0 :: ns0) in *.
    rewrite E, bind_outcome.
    destruct (outcome (map_jobs w cfg (chosen_dem_path w cfg) jobs)) as [e|rs] eqn:Ej;
      [discriminate|].
    apply (@map_jobs_value w cfg _ src jobs Ho) in Ej. subst rs.
    pose proof (produced_rasters_count cfg src jobs) as Hc.
    destruct (filter nonempty (map (raster_name cfg src) jobs)) as [|r rs] eqn:Ef;
      [discriminate|].
    destruct (Merge.merge_binary_rasters _ _ _ _ _) as [e|m]; [discriminate|].
    set (a := len jobs) in *. set (b := len (r :: rs)) in *.
    set (c := count (outside src) jobs) in *. clearbody a b c.
    intros H. injection H as <-.
    cbv [nodes nodes_skipped_outside_dem viewshed_rasters].
    repeat split; lia.
  - intros exe m Hw Hr Hin Hm.
    unfold compute_coverage. cbv zeta.
    rewrite bind_outcome, Hl.
    pose proof (some_inside_produces cfg src ns Hin) as Hne.
    destruct ns as [|n0 ns0]; [discriminate|].
    set (jobs := n0 :: ns0) in *.
    rewrite E, bind_outcome, (@map_jobs_total w cfg _ exe src jobs Ho Hw Hr).
    destruct (filter nonempty (map (raster_name cfg src) jobs)) as [|r rs] eqn:Ef;
      [contradiction|].
    rewrite Hm. eexists. reflexivity.
Qed.

Lemma C9_outside_nodes_skipped_and_counted_witness :
  exists rep,
    outcome (compute_coverage world_two_nodes demo_cfg) = inr rep /\
    nodes rep = 2%Z /\ nodes_skipped_outside_dem rep = 1%Z /\
    viewshed_rasters rep = 1%Z.
Proof.
  edestruct (@C9_outside_nodes_skipped_and_counted
               world_two_nodes demo_cfg Height.geo_dem) as [_ [Hrun Hex]];
    [reflexivity | reflexivity |].
  edestruct (Hex "/usr/bin/gdal_viewshed") as [rep Hrep];
    [reflexivity | reflexivity | reflexivity | reflexivity |].
  exists rep. split; [exact Hrep|].
  destruct (Hrun rep Hrep) as [H1 [H2 H3]].
  assert (E1 : nodes rep = 2%Z) by (rewrite H1; reflexivity).
  assert (E2 : nodes_skipped_outside_dem rep = 1%Z) by (rewrite H2; reflexivity).
  repeat split; try assumption. lia.
Defined.

End OrchestrationClaims.
